(** * The remove-openshift worker: name derivation and removal protocol

    A shallow embedding of the task worker that removes an OpenShift project
    for a Lagoon environment ([messageConsumer], [retryHandler],
    [deathHandler] and the [ocsafety] transform), followed by the properties
    of the written specification that can be settled on it, and by further
    properties of the code.

    Modelling conventions.
    - A JavaScript string is a [string] of code units in the range 0..255
      (ASCII and Latin-1).  [toLocaleLowerCase] is the default-locale
      lower-casing on that range: no Turkish/Azeri/Lithuanian tailoring.
    - A message is taken after [JSON.parse], as the four destructured fields.
    - The values a decoded task field can hold are [jsval]; numbers are the
      integer-valued ones: [JNum n] is the Number that the integer literal [n]
      denotes, that is the double nearest to [n], and [number_to_string] is
      Number::toString on it (plain digits below 10^21, exponent notation
      from there on, shortest digits that read back as the same double).
    - An asynchronous call to a collaborator is an entry of the effect trace
      followed by the collaborator's answer, read from a [world] record; the
      awaited calls of one run happen at most once each, in trace order.
    - A thrown value is a [js_error]; a run ends in [Ok] or [Throw]. *)

From Stdlib Require Import List String Ascii ZArith Bool DecimalString Lia.
Import ListNotations.

Local Open Scope string_scope.
Local Open Scope Z_scope.

(** ** JavaScript values and strings *)

Module JS.

Inductive jsval : Type :=
| JUndefined
| JNull
| JStr (s : string)
| JNum (n : Z).

(** The decimal numeral of an integer. *)
Definition decimal (n : Z) : string := NilZero.string_of_int (Z.to_int n).

(** A Number of magnitude 2^53 or more: [m * 2^e] with [2^52 <= m < 2^53]
    and [1 <= e <= 971], or an infinity. *)
Inductive magnitude : Type :=
| Finite (m e : Z)
| Infinite.

(** The double nearest to the integer [a >= 2^53], ties to the even
    significand; beyond the largest double the result is an infinity. *)
Definition nearest_double (a : Z) : magnitude :=
  let e := Z.log2 a - 52 in
  let q := a / 2 ^ e in
  let r := a - q * 2 ^ e in
  let half := 2 ^ (e - 1) in
  let up := ((half <? r) || ((r =? half) && Z.odd q))%bool in
  let m := if up then q + 1 else q in
  let '(m, e) := if m =? 2 ^ 53 then (2 ^ 52, e + 1) else (m, e) in
  if 971 <? e then Infinite else Finite m e.

(** The multiple of [t] that reads back as the double [m * 2^e] and is
    closest to it, if there is one.  A real number reads back as that double
    when it lies between the midpoints to the neighbouring doubles (the
    midpoints themselves count when [m] is even); the double below a power of
    two is half as far away.  Of two multiples equally close, the one with
    the even quotient is taken. *)
Definition candidate (m e t : Z) : option Z :=
  let v := m * 2 ^ e in
  let low2 := 2 * v - (if m =? 2 ^ 52 then 2 ^ (e - 1) else 2 ^ e) in
  let high2 := 2 * v + 2 ^ e in
  let inside c :=
    if Z.even m then ((low2 <=? 2 * c) && (2 * c <=? high2))%bool
    else ((low2 <? 2 * c) && (2 * c <? high2))%bool in
  let c_lo := v / t * t in
  let c_hi := c_lo + t in
  match inside c_lo, inside c_hi with
  | true, true =>
      if v - c_lo <? c_hi - v then Some c_lo
      else if c_hi - v <? v - c_lo then Some c_hi
      else if Z.even (c_lo / t) then Some c_lo else Some c_hi
  | true, false => Some c_lo
  | false, true => Some c_hi
  | false, false => None
  end.

(** The integer with the fewest significant digits that reads back as the
    double [m * 2^e]: the first candidate found among the multiples of
    [10^p], [10^(p-1)], ..., [1]. *)
Fixpoint shortest_from (m e : Z) (p : nat) : Z :=
  match candidate m e (10 ^ Z.of_nat p) with
  | Some c => c
  | None =>
      match p with
      | O => m * 2 ^ e
      | S p' => shortest_from m e p'
      end
  end.

Definition shortest_digits (m e : Z) : Z :=
  shortest_from m e (String.length (decimal (m * 2 ^ e))).

(** Drops the zeros at the end of a numeral. *)
Fixpoint strip_zeros (s : string) : string :=
  match s with
  | EmptyString => EmptyString
  | String c r =>
      match strip_zeros r with
      | EmptyString => if Ascii.eqb c "0" then EmptyString else String c EmptyString
      | r' => String c r'
      end
  end.

(** The numeral of a positive integer [c] given by its shortest digits:
    plain up to 21 digits, and from 22 digits on the first digit, the other
    significant digits after a point, and the exponent. *)
Definition print_magnitude (c : Z) : string :=
  if c <? 10 ^ 21 then decimal c
  else
    let exponent := decimal (Z.of_nat (String.length (decimal c)) - 1) in
    match strip_zeros (decimal c) with
    | String d EmptyString => String d ("e+" ++ exponent)
    | String d rest => String d ("." ++ rest ++ "e+" ++ exponent)
    | EmptyString => EmptyString
    end.

(** Number::toString of the Number that the integer literal [n] denotes.
    Below 2^53 every integer is a double and is printed digit for digit. *)
Definition number_to_string (n : Z) : string :=
  if Z.abs n <? 2 ^ 53 then decimal n
  else
    (if n <? 0 then "-" else "")
    ++ match nearest_double (Z.abs n) with
       | Infinite => "Infinity"
       | Finite m e => print_magnitude (shortest_digits m e)
       end.

(** The number is printed as plain digits, without point or exponent. *)
Definition plain_decimal (n : Z) : bool :=
  ((Z.abs n <? 2 ^ 53)
   || match nearest_double (Z.abs n) with
      | Infinite => false
      | Finite m e => shortest_digits m e <? 10 ^ 21
      end)%bool.

(** ToString, as used by a template literal's substitution. *)
Definition to_string (v : jsval) : string :=
  match v with
  | JUndefined => "undefined"
  | JNull => "null"
  | JStr s => s
  | JNum n => number_to_string n
  end.

(** ToBoolean. *)
Definition truthy (v : jsval) : bool :=
  match v with
  | JUndefined | JNull => false
  | JStr s => negb (String.eqb s "")
  | JNum n => negb (n =? 0)
  end.

(** [a || b] *)
Definition js_or (a b : jsval) : jsval := if truthy a then a else b.

(** [v === 'lit'] for a string literal. *)
Definition strict_eq_str (v : jsval) (lit : string) : bool :=
  match v with
  | JStr s => String.eqb s lit
  | _ => false
  end.

(** Error objects: [name], [message] and the optional numeric [code] that the
    cluster client attaches to a failed HTTP request. *)
Record js_error : Type := mkError {
  err_name : string;
  err_message : string;
  err_code : option Z
}.

(** [new Error] *)
Definition new_Error : js_error := mkError "Error" "" None.

(** A TypeError raised by the runtime; the message text is the engine's and
    nothing below depends on it. *)
Definition type_error (text : string) : js_error :=
  mkError "TypeError" text None.

(** Error.prototype.toString, which a template literal applies to an error. *)
Definition error_to_string (e : js_error) : string :=
  if String.eqb (err_name e) "" then err_message e
  else if String.eqb (err_message e) "" then err_name e
  else err_name e ++ ": " ++ err_message e.

(** [err.code == 404] *)
Definition code_is_404 (e : js_error) : bool :=
  match err_code e with
  | Some c => c =? 404
  | None => false
  end.

(** Result of an expression that may throw. *)
Inductive result (A : Type) : Type :=
| Ok (a : A)
| Throw (e : js_error).
Arguments Ok {A} a.
Arguments Throw {A} e.

Definition code_between (lo hi : nat) (c : ascii) : bool :=
  (Nat.leb lo (nat_of_ascii c) && Nat.leb (nat_of_ascii c) hi)%bool.

(** Upper-case code units of the modelled range: A-Z, and the Latin-1 capitals
    U+00C0..U+00DE without the multiplication sign U+00D7. *)
Definition is_upper (c : ascii) : bool :=
  (code_between 65 90 c || code_between 192 214 c || code_between 216 222 c)%bool.

Definition lower_char (c : ascii) : ascii :=
  if is_upper c then ascii_of_nat (nat_of_ascii c + 32) else c.

Fixpoint map_string (f : ascii -> ascii) (s : string) : string :=
  match s with
  | EmptyString => EmptyString
  | String c r => String (f c) (map_string f r)
  end.

(** [s.toLocaleLowerCase()] on the modelled code units.  Outside this range
    the method is not one code unit for one: U+0130 becomes two. *)
Definition toLocaleLowerCase (s : string) : string := map_string lower_char s.

(** [s.replace(/\/$/, "")]: drops one trailing slash. *)
Fixpoint strip_trailing_slash (s : string) : string :=
  match s with
  | EmptyString => EmptyString
  | String c r =>
      match r with
      | EmptyString => if Ascii.eqb c "/" then EmptyString else s
      | _ => String c (strip_trailing_slash r)
      end
  end.

(** [typeof v === 'string'] *)
Definition is_string (v : jsval) : bool :=
  match v with
  | JStr _ => true
  | _ => false
  end.

(** The last code unit of [s] is a slash. *)
Fixpoint ends_with_slash (s : string) : bool :=
  match s with
  | EmptyString => false
  | String c EmptyString => Ascii.eqb c "/"
  | String _ r => ends_with_slash r
  end.

End JS.
Import JS.

(** ** The sanitising transform *)

(** The character class [0-9a-z-]. *)
Definition safe_char (c : ascii) : bool :=
  (code_between 48 57 c || code_between 97 122 c || Ascii.eqb c "-")%bool.

(** One step of [replace(/[^0-9a-z-]/g, '-')]. *)
Definition replace_unsafe (c : ascii) : ascii :=
  if safe_char c then c else "-"%char.

(** [ocsafety] on a string receiver:
    [string.toLocaleLowerCase().replace(/[^0-9a-z-]/g,'-')]. *)
Definition ocsafety_str (s : string) : string :=
  map_string replace_unsafe (toLocaleLowerCase s).

(** [ocsafety] on an arbitrary value: only a string has the method. *)
Definition ocsafety (v : jsval) : result string :=
  match v with
  | JStr s => Ok (ocsafety_str s)
  | JNum _ => Throw (type_error "string.toLocaleLowerCase is not a function")
  | JNull => Throw (type_error "Cannot read property 'toLocaleLowerCase' of null")
  | JUndefined =>
      Throw (type_error "Cannot read property 'toLocaleLowerCase' of undefined")
  end.

(** Every code unit of [s] is in [0-9a-z-]. *)
Fixpoint all_safe (s : string) : bool :=
  match s with
  | EmptyString => true
  | String c r => (safe_char c && all_safe r)%bool
  end.

(** ** Tasks, collaborators and effects *)

(** The fields destructured from the decoded message body. *)
Record task : Type := mkTask {
  projectName : jsval;
  branch : jsval;
  pullrequestNumber : jsval;
  type : jsval
}.

(** [result.project.openshift] as returned by [getOpenShiftInfoForProject]. *)
Record openshift_info : Type := mkOpenshift {
  console_url : string;
  token : jsval
}.

Inductive log_level : Type := Verbose | Info | Warn | Err.

Inductive log_payload : Type :=
| LogText (text : string)
| LogError (e : js_error).

(** The [meta] object handed to [sendToLagoonLogs]. *)
Inductive log_meta : Type :=
| MetaEmpty
| MetaRetry (error : js_error) (msg : task) (retryCount : Z).

(** One observable side effect, in program order. *)
Inductive effect : Type :=
| Logger (level : log_level) (payload : log_payload)
| GetOpenShiftInfoForProject (project : jsval)
| ProjectsGet (url : string) (bearer : jsval) (project : jsval)
| ProjectsDelete (url : string) (bearer : jsval) (project : jsval)
| DeleteEnvironment (environment project : jsval)
| SendToLagoonLogs (severity : string) (project : jsval) (uuid event : string)
    (meta : log_meta) (message : string).

(** The collaborators' answers during one run.  [None] for the project
    information stands for a reply whose [project] has no usable
    [openshift.console_url] (the property chain raises a TypeError). *)
Record world : Type := mkWorld {
  info_answer : result (option openshift_info);
  projectsGet_answer : result unit;
  projectsDelete_answer : result unit;
  deleteEnvironment_answer : result unit
}.

(** ** A trace-and-exception monad *)

Module Run.

Definition M (A : Type) : Type := (list effect * result A)%type.

Definition ret {A} (a : A) : M A := ([], Ok a).

Definition bind {A B} (m : M A) (k : A -> M B) : M B :=
  match m with
  | (t, Ok a) => let '(t', r) := k a in ((t ++ t')%list, r)
  | (t, Throw e) => (t, Throw e)
  end.

Definition throw {A} (e : js_error) : M A := ([], Throw e).

Definition emit (ev : effect) : M unit := ([ev], Ok tt).

(** An awaited call: the call is observed, then its answer is delivered. *)
Definition await {A} (ev : effect) (answer : result A) : M A := ([ev], answer).

Definition lift {A} (r : result A) : M A := ([], r).

(** [try { body } catch (e) { handler e }] *)
Definition try_catch {A} (body : M A) (handler : js_error -> M A) : M A :=
  match body with
  | (t, Throw e) => let '(t', r) := handler e in ((t ++ t')%list, r)
  | done => done
  end.

Definition trace {A} (m : M A) : list effect := fst m.
Definition outcome {A} (m : M A) : result A := snd m.

End Run.
Import Run.

Notation "x <- m ;; k" := (bind m (fun x => k))
  (at level 61, m at next level, right associativity).
Notation "m ;;; k" := (bind m (fun _ => k))
  (at level 61, right associativity).

(** Sequencing in [result] alone, for code that throws but has no effects. *)
Definition and_then {A B} (r : result A) (k : A -> result B) : result B :=
  match r with
  | Ok a => k a
  | Throw e => Throw e
  end.

(** ** The worker *)

(** The variables assigned in the first [try] block of [messageConsumer]. *)
Record names : Type := mkNames {
  safeProjectName : string;
  openshiftConsole : string;
  openshiftToken : jsval;
  openshiftProject : jsval;
  environmentName : jsval
}.

(** The body of the first [try] block: project slug, console URL, token, and
    the [switch (type)] that derives the two names.  The switch has no
    [default]: with no matching case both names keep their initial value
    [undefined]. *)
Definition resolve (msg : task) (info : option openshift_info) : result names :=
  and_then (ocsafety (projectName msg)) (fun safeProjectName =>
  match info with
  | None => Throw (type_error "Cannot read property 'console_url' of undefined")
  | Some os =>
      let openshiftConsole := strip_trailing_slash (console_url os) in
      let openshiftToken := js_or (token os) (JStr "") in
      if strict_eq_str (type msg) "pullrequest" then
        Ok (mkNames safeProjectName openshiftConsole openshiftToken
              (JStr (safeProjectName ++ "-pr-" ++ to_string (pullrequestNumber msg)))
              (JStr ("pr-" ++ to_string (pullrequestNumber msg))))
      else if strict_eq_str (type msg) "branch" then
        and_then (ocsafety (branch msg)) (fun safeBranchName =>
        Ok (mkNames safeProjectName openshiftConsole openshiftToken
              (JStr (safeProjectName ++ "-" ++ safeBranchName))
              (branch msg)))
      else
        Ok (mkNames safeProjectName openshiftConsole openshiftToken
              JUndefined JUndefined)
  end).

(** The lines written to the local logger. *)
Definition log_received (msg : task) : effect :=
  Logger Verbose (LogText
    ("Received RemoveOpenshift task for project " ++ to_string (projectName msg)
     ++ ", type " ++ to_string (type msg)
     ++ ", branch " ++ to_string (branch msg)
     ++ ", pullrequest " ++ to_string (pullrequestNumber msg))).

Definition log_load_error (msg : task) (error : js_error) : effect :=
  Logger Warn (LogText
    ("Error while loading openshift information for project "
     ++ to_string (projectName msg) ++ ", error " ++ error_to_string error)).

Definition log_will_remove (n : names) : effect :=
  Logger Info (LogText
    ("Will remove OpenShift Project " ++ to_string (openshiftProject n)
     ++ " on " ++ openshiftConsole n)).

Definition log_assumed_removed (n : names) : effect :=
  Logger Info (LogText
    (to_string (openshiftProject n) ++ " does not exist, assuming it was removed")).

Definition log_deleted_in_api (n : names) : effect :=
  Logger Info (LogText
    (to_string (openshiftProject n) ++ ": Deleted Environment '"
     ++ to_string (environmentName n) ++ "' in API")).

Definition log_error (err : js_error) : effect := Logger Err (LogError err).

(** The success event; both places that send it pass the same arguments. *)
Definition finished_event (msg : task) (n : names) : effect :=
  SendToLagoonLogs "success" (projectName msg) ""
    "task:remove-openshift:finished" MetaEmpty
    ("*[" ++ to_string (projectName msg) ++ "]* remove `"
          ++ to_string (openshiftProject n) ++ "`").

(** The three calls to the collaborators, with the arguments they receive. *)
Definition call_get (n : names) : effect :=
  ProjectsGet (openshiftConsole n) (openshiftToken n) (openshiftProject n).

Definition call_delete (n : names) : effect :=
  ProjectsDelete (openshiftConsole n) (openshiftToken n) (openshiftProject n).

Definition call_deleteEnvironment (msg : task) (n : names) : effect :=
  DeleteEnvironment (environmentName n) (projectName msg).

(** The existence probe.  [true]: the project is there and the run goes on;
    [false]: the 404 branch was taken and the function has returned. *)
Definition check_exists (w : world) (msg : task) (n : names) : M bool :=
  try_catch
    (await (call_get n) (projectsGet_answer w) ;;;
     ret true)
    (fun err =>
       if code_is_404 err then
         emit (log_assumed_removed n) ;;;
         emit (finished_event msg n) ;;;
         ret false
       else
         emit (log_error err) ;;;
         throw new_Error).

(** The project exists and is removed. *)
Definition remove_project (w : world) (msg : task) (n : names) : M unit :=
  try_catch
    (await (call_delete n) (projectsDelete_answer w) ;;;
     emit (finished_event msg n))
    (fun err =>
       emit (log_error err) ;;;
       throw new_Error).

(** The GraphQL API is told that the environment has been deleted. *)
Definition update_api (w : world) (msg : task) (n : names) : M unit :=
  try_catch
    (await (call_deleteEnvironment msg n) (deleteEnvironment_answer w) ;;;
     emit (log_deleted_in_api n))
    (fun err =>
       emit (log_error err) ;;;
       throw new_Error).

Definition messageConsumer (w : world) (msg : task) : M unit :=
  emit (log_received msg) ;;;
  projectOpenShift <-
    await (GetOpenShiftInfoForProject (projectName msg)) (info_answer w) ;;
  n <- try_catch (lift (resolve msg projectOpenShift))
         (fun error =>
            emit (log_load_error msg error) ;;;
            throw error) ;;
  emit (log_will_remove n) ;;;
  found <- check_exists w msg n ;;
  if found : bool then
    remove_project w msg n ;;;
    update_api w msg n
  else
    ret tt.

(** What a run has done when it reaches the existence probe with names [n]. *)
Definition preamble (msg : task) (n : names) : list effect :=
  [log_received msg; GetOpenShiftInfoForProject (projectName msg);
   log_will_remove n; call_get n].

(** ** The retry and dead-letter callbacks *)

Definition nl : string := String (ascii_of_nat 10) EmptyString.

(** [ocsafety(`${projectName}-${branch || pullrequestNumber}`)] *)
Definition handler_project (msg : task) : string :=
  ocsafety_str (to_string (projectName msg) ++ "-"
                ++ to_string (js_or (branch msg) (pullrequestNumber msg))).

Definition error_message (msg : task) (e : js_error) : string :=
  "*[" ++ to_string (projectName msg) ++ "]* remove `" ++ handler_project msg
       ++ "` ERROR:" ++ nl ++ "```" ++ nl ++ error_to_string e ++ nl ++ "```".

Definition deathHandler (msg : task) (lastError : js_error) : M unit :=
  emit (SendToLagoonLogs "error" (projectName msg) ""
          "task:remove-openshift:error" MetaEmpty (error_message msg lastError)).

Definition retryHandler (msg : task) (error : js_error)
    (retryCount retryExpirationSecs : Z) : M unit :=
  emit (SendToLagoonLogs "warn" (projectName msg) ""
          "task:remove-openshift:retry" (MetaRetry error msg retryCount)
          (error_message msg error ++ nl ++ "Retrying in "
             ++ number_to_string retryExpirationSecs ++ " secs")).

(** ** The key-reset migration: the text of a private key *)

Module ResetProjectKeys.

(** [R.replace(/\n/g, '\n', text)]: every line feed is replaced by the
    replacement string, which is a line feed. *)
Definition replace_newlines (text : string) : string :=
  map_string (fun c => if Ascii.eqb c (ascii_of_nat 10) then ascii_of_nat 10 else c)
    text.

End ResetProjectKeys.

(** ** Observations on a trace *)

Definition is_cluster_get (e : effect) : bool :=
  match e with ProjectsGet _ _ _ => true | _ => false end.

Definition is_cluster_delete (e : effect) : bool :=
  match e with ProjectsDelete _ _ _ => true | _ => false end.

Definition is_registry_update (e : effect) : bool :=
  match e with DeleteEnvironment _ _ => true | _ => false end.

Definition is_success_event (e : effect) : bool :=
  match e with
  | SendToLagoonLogs severity _ _ _ _ _ => String.eqb severity "success"
  | _ => false
  end.

Definition count (p : effect -> bool) (t : list effect) : nat :=
  List.length (filter p t).

(** Every [q]-effect of [t] comes after some [p]-effect of [t]; [seen] tells
    whether a [p]-effect has already gone by. *)
Fixpoint preceded (p q : effect -> bool) (seen : bool) (t : list effect) : bool :=
  match t with
  | [] => true
  | e :: r => ((if q e then seen else true) && preceded p q (seen || p e) r)%bool
  end.

(** ** Well-formed tasks *)

(** A task as the data model describes it: a project name, and either a
    non-empty branch (kind branch) or a pull-request number (kind
    pullrequest). *)
Definition valid_task (msg : task) : bool :=
  match projectName msg with
  | JStr _ =>
      if strict_eq_str (type msg) "pullrequest" then
        match pullrequestNumber msg with
        | JNum n => true
        | _ => false
        end
      else if strict_eq_str (type msg) "branch" then
        match branch msg with
        | JStr b => negb (String.eqb b "")
        | _ => false
        end
      else false
  | _ => false
  end.

(** The pull-request number of a pull-request task, when it is a number, is
    printed as plain digits. *)
Definition plain_number (msg : task) : bool :=
  if strict_eq_str (type msg) "pullrequest" then
    match pullrequestNumber msg with
    | JNum n => plain_decimal n
    | _ => true
    end
  else true.

(** The type field is missing or is not one of the two recognised values. *)
Definition unknown_type (msg : task) : bool :=
  (negb (strict_eq_str (type msg) "pullrequest")
   && negb (strict_eq_str (type msg) "branch"))%bool.

(** ** Failing calls *)

(** One of the three awaited calls of the protocol fails with [err]: the
    existence probe with something other than a 404, or the delete after a
    successful probe, or the registry update after a successful delete. *)
Inductive call_fails (w : world) (err : js_error) : Prop :=
| ProbeFails :
    projectsGet_answer w = Throw err ->
    code_is_404 err = false ->
    call_fails w err
| DeleteFails (u : unit) :
    projectsGet_answer w = Ok u ->
    projectsDelete_answer w = Throw err ->
    call_fails w err
| RegistryFails (u v : unit) :
    projectsGet_answer w = Ok u ->
    projectsDelete_answer w = Ok v ->
    deleteEnvironment_answer w = Throw err ->
    call_fails w err.

(** The run fails with [e] before it reaches the existence probe: the API
    lookup is rejected with [e], or evaluating the first [try] block throws
    [e]. *)
Inductive early_failure (w : world) (msg : task) (e : js_error) : Prop :=
| LookupRejected :
    info_answer w = Throw e ->
    early_failure w msg e
| ResolveThrows (info : option openshift_info) :
    info_answer w = Ok info ->
    resolve msg info = Throw e ->
    early_failure w msg e.

(** The answers with which a run that has its names returns normally: a 404
    from the probe, or three successful calls. *)
Definition answers_succeed (w : world) : bool :=
  match projectsGet_answer w with
  | Throw err => code_is_404 err
  | Ok _ =>
      match projectsDelete_answer w, deleteEnvironment_answer w with
      | Ok _, Ok _ => true
      | _, _ => false
      end
  end.

(** A field that [ocsafety] is applied to does not hold a string: the project
    name, or the branch of a task of type branch. *)
Definition cannot_sanitise (msg : task) : bool :=
  (negb (is_string (projectName msg))
   || (strict_eq_str (type msg) "branch" && negb (is_string (branch msg))))%bool.

Definition is_api_lookup (e : effect) : bool :=
  match e with GetOpenShiftInfoForProject _ => true | _ => false end.

(** ** Behaviours the specification describes, as predicates on a run *)

(** The success event comes only after a registry update has been made. *)
Definition success_only_after_registry (w : world) (msg : task) : Prop :=
  preceded is_registry_update is_success_event false
    (trace (messageConsumer w msg)) = true.

(** The run fails, and it does so without having called the cluster or
    updated the registry. *)
Definition rejected_before_calls (w : world) (msg : task) : Prop :=
  (exists e, outcome (messageConsumer w msg) = Throw e)
  /\ count is_cluster_get (trace (messageConsumer w msg)) = 0%nat
  /\ count is_cluster_delete (trace (messageConsumer w msg)) = 0%nat
  /\ count is_registry_update (trace (messageConsumer w msg)) = 0%nat.

(** The run is not an error. *)
Definition not_an_error (w : world) (msg : task) : Prop :=
  outcome (messageConsumer w msg) = Ok tt.

(** [hay.includes(needle)] *)
Definition includes (needle hay : string) : bool :=
  match String.index 0 needle hay with
  | Some _ => true
  | None => false
  end.

(** The event tells the number of attempts: in its metadata, or somewhere in
    its text. *)
Definition reports_attempts (attempts : Z) (e : effect) : bool :=
  match e with
  | SendToLagoonLogs _ _ _ _ meta message =>
      (match meta with
       | MetaRetry _ _ retryCount => retryCount =? attempts
       | MetaEmpty => false
       end
       || includes (number_to_string attempts) message)%bool
  | _ => false
  end.

(** The dead-letter handler sends an event that tells the attempts. *)
Definition dead_letter_reports_attempts (msg : task) (lastError : js_error)
    (attempts : Z) : Prop :=
  exists ev, In ev (trace (deathHandler msg lastError))
             /\ reports_attempts attempts ev = true.

(** The derived cluster project name is made of lower-case letters, digits
    and hyphens. *)
Definition legal_cluster_name (msg : task) (os : openshift_info) : Prop :=
  exists r s, resolve msg (Some os) = Ok r
              /\ openshiftProject r = JStr s
              /\ all_safe s = true.

(** The dead-letter handler names the project as name resolution does. *)
Definition handler_name_matches (msg : task) : Prop :=
  forall os r, resolve msg (Some os) = Ok r ->
    openshiftProject r = JStr (handler_project msg).

(** ** The scenarios of the specification, as inputs *)

Module Scenario.

Definition branch_task : task :=
  mkTask (JStr "My_Project") (JStr "feature/X") JUndefined (JStr "branch").

Definition pr_task : task :=
  mkTask (JStr "acme") JUndefined (JNum 42) (JStr "pullrequest").

(** The same pull request with the [type] field left out. *)
Definition untyped_task : task :=
  mkTask (JStr "acme") JUndefined (JNum 42) JUndefined.

Definition cluster : openshift_info :=
  mkOpenshift "https://console.example/" (JStr "secret").

Definition not_found : js_error := mkError "Error" "project not found" (Some 404).

Definition unavailable : js_error := mkError "Error" "service unavailable" (Some 503).

Definition all_fine : world :=
  mkWorld (Ok (Some cluster)) (Ok tt) (Ok tt) (Ok tt).

Definition already_removed : world :=
  mkWorld (Ok (Some cluster)) (Throw not_found) (Ok tt) (Ok tt).

Definition removed_meanwhile : world :=
  mkWorld (Ok (Some cluster)) (Ok tt) (Throw not_found) (Ok tt).

Definition registry_down : world :=
  mkWorld (Ok (Some cluster)) (Ok tt) (Ok tt) (Throw unavailable).

(** The API cannot be reached. *)
Definition api_down : world :=
  mkWorld (Throw unavailable) (Ok tt) (Ok tt) (Ok tt).

(** A branch task that lost its [branch] field. *)
Definition branchless_task : task :=
  mkTask (JStr "My_Project") JUndefined JUndefined (JStr "branch").

(** A pull-request task that lost its [pullrequestNumber] field. *)
Definition numberless_task : task :=
  mkTask (JStr "acme") JUndefined JUndefined (JStr "pullrequest").

(** A pull request of a project whose name needs sanitising. *)
Definition capitals_pr_task : task :=
  mkTask (JStr "My_Project") JUndefined (JNum 42) (JStr "pullrequest").

(** A pull request whose number is 10^21. *)
Definition huge_pr_task : task :=
  mkTask (JStr "acme") JUndefined (JNum (10 ^ 21)) (JStr "pullrequest").

(** A cluster whose record holds no token. *)
Definition tokenless_cluster : openshift_info :=
  mkOpenshift "https://console.example" JNull.

(** A branch whose name reads like a pull request. *)
Definition lookalike_task : task :=
  mkTask (JStr "acme") (JStr "pr-42") JUndefined (JStr "branch").

End Scenario.

(** * Properties *)

(** ** Strings *)

Section StringFacts.

Lemma map_string_app (f : ascii -> ascii) (a b : string) :
  map_string f (a ++ b) = map_string f a ++ map_string f b.
Proof.
  induction a as [|c a IH]; simpl; [reflexivity|].
  now rewrite IH.
Qed.

Lemma ocsafety_str_app (a b : string) :
  ocsafety_str (a ++ b) = ocsafety_str a ++ ocsafety_str b.
Proof.
  unfold ocsafety_str, toLocaleLowerCase.
  now rewrite !map_string_app.
Qed.

Lemma all_safe_app (a b : string) :
  all_safe (a ++ b) = (all_safe a && all_safe b)%bool.
Proof.
  induction a as [|c a IH]; simpl; [reflexivity|].
  now rewrite IH, andb_assoc.
Qed.

Lemma replace_unsafe_safe (c : ascii) : safe_char (replace_unsafe c) = true.
Proof.
  unfold replace_unsafe.
  destruct (safe_char c) eqn:E; [exact E | reflexivity].
Qed.

Lemma safe_char_lower (c : ascii) : safe_char c = true -> lower_char c = c.
Proof.
  destruct c as [[] [] [] [] [] [] [] []]; vm_compute; congruence.
Qed.

Lemma replace_unsafe_fixed (c : ascii) :
  safe_char c = true -> replace_unsafe c = c.
Proof.
  unfold replace_unsafe. now intros ->.
Qed.

Lemma all_safe_ocsafety_str (s : string) : all_safe (ocsafety_str s) = true.
Proof.
  unfold ocsafety_str, toLocaleLowerCase.
  induction s as [|c s IH]; simpl; [reflexivity|].
  now rewrite replace_unsafe_safe, IH.
Qed.

Lemma ocsafety_str_fixed (s : string) :
  all_safe s = true -> ocsafety_str s = s.
Proof.
  unfold ocsafety_str, toLocaleLowerCase.
  induction s as [|c s IH]; simpl; [reflexivity|].
  intros H. apply andb_true_iff in H as [Hc Hs].
  rewrite (safe_char_lower c Hc), (replace_unsafe_fixed c Hc).
  f_equal. now apply IH.
Qed.

Lemma all_safe_digits (d : Decimal.uint) :
  all_safe (NilEmpty.string_of_uint d) = true.
Proof.
  induction d; simpl; auto.
Qed.

Lemma all_safe_decimal (n : Z) : all_safe (decimal n) = true.
Proof.
  unfold decimal, NilZero.string_of_int, NilZero.string_of_uint.
  destruct (Z.to_int n) as [d|d]; destruct d; simpl;
    auto using all_safe_digits.
Qed.

Lemma all_safe_number_to_string (n : Z) :
  plain_decimal n = true -> all_safe (number_to_string n) = true.
Proof.
  unfold plain_decimal, number_to_string.
  destruct (Z.abs n <? 2 ^ 53); [intros _; apply all_safe_decimal|].
  cbn [orb].
  destruct (nearest_double (Z.abs n)) as [m e|]; [|discriminate].
  unfold print_magnitude. intros ->.
  rewrite all_safe_app, all_safe_decimal.
  now destruct (n <? 0).
Qed.

End StringFacts.

(** C10.  The sanitising transform is idempotent, and it leaves unchanged
    every string that consists only of lower-case ASCII letters, digits and
    hyphens. *)
Theorem ocsafety_idempotent_and_fixed (s : string) :
  ocsafety_str (ocsafety_str s) = ocsafety_str s
  /\ (all_safe s = true -> ocsafety_str s = s).
Proof.
  split.
  - apply ocsafety_str_fixed, all_safe_ocsafety_str.
  - apply ocsafety_str_fixed.
Qed.

Lemma ocsafety_idempotent_and_fixed_witness :
  all_safe "my-project-7" = true
  /\ ocsafety_str (ocsafety_str "my-project-7") = ocsafety_str "my-project-7"
  /\ ocsafety_str "my-project-7" = "my-project-7".
Proof.
  split; [reflexivity|].
  split.
  - exact (proj1 (ocsafety_idempotent_and_fixed "my-project-7")).
  - apply (proj2 (ocsafety_idempotent_and_fixed "my-project-7")). reflexivity.
Defined.

(** ** Name resolution *)

(** The value of [resolve] on the two recognised types. *)
Lemma resolve_pullrequest_value (msg : task) (os : openshift_info) (p : string) :
  projectName msg = JStr p ->
  type msg = JStr "pullrequest" ->
  resolve msg (Some os)
  = Ok (mkNames (ocsafety_str p) (strip_trailing_slash (console_url os))
          (js_or (token os) (JStr ""))
          (JStr (ocsafety_str p ++ "-pr-" ++ to_string (pullrequestNumber msg)))
          (JStr ("pr-" ++ to_string (pullrequestNumber msg)))).
Proof.
  intros Hp Ht. unfold resolve.
  rewrite Hp, Ht. cbn [ocsafety and_then strict_eq_str].
  now rewrite String.eqb_refl.
Qed.

Lemma resolve_branch_value (msg : task) (os : openshift_info) (p b : string) :
  projectName msg = JStr p ->
  type msg = JStr "branch" ->
  branch msg = JStr b ->
  resolve msg (Some os)
  = Ok (mkNames (ocsafety_str p) (strip_trailing_slash (console_url os))
          (js_or (token os) (JStr ""))
          (JStr (ocsafety_str p ++ "-" ++ ocsafety_str b))
          (JStr b)).
Proof.
  intros Hp Ht Hb. unfold resolve.
  rewrite Hp, Ht, Hb. cbn [ocsafety and_then strict_eq_str].
  change (String.eqb "branch" "pullrequest") with false.
  now rewrite String.eqb_refl.
Qed.

(** C6.  For a pull-request task the cluster project name is the sanitised
    project name, then [-pr-], then the pull-request number, and the registry
    environment name is [pr-] followed by the number, whatever the casing or
    punctuation of the project name: the sanitised part holds nothing but
    lower-case letters, digits and hyphens. *)
Theorem resolve_pullrequest (msg : task) (os : openshift_info) (p : string) (n : Z) :
  projectName msg = JStr p ->
  type msg = JStr "pullrequest" ->
  pullrequestNumber msg = JNum n ->
  exists r, resolve msg (Some os) = Ok r
    /\ openshiftProject r = JStr (ocsafety_str p ++ "-pr-" ++ number_to_string n)
    /\ environmentName r = JStr ("pr-" ++ number_to_string n)
    /\ all_safe (ocsafety_str p) = true.
Proof.
  intros Hp Ht Hn.
  rewrite (resolve_pullrequest_value msg os p Hp Ht), Hn.
  eexists. split; [reflexivity|]. split; [reflexivity|].
  split; [reflexivity | apply all_safe_ocsafety_str].
Qed.

Lemma resolve_pullrequest_witness :
  exists r, resolve Scenario.capitals_pr_task (Some Scenario.cluster) = Ok r
    /\ openshiftProject r = JStr "my-project-pr-42"
    /\ environmentName r = JStr "pr-42"
    /\ all_safe "my-project" = true.
Proof.
  exact (resolve_pullrequest Scenario.capitals_pr_task Scenario.cluster
           "My_Project" 42 eq_refl eq_refl eq_refl).
Defined.

(** C7.  For a branch task the cluster project name is the sanitised project
    name, a hyphen, and the sanitised branch, while the registry environment
    name is the branch exactly as received, also when sanitising changes it. *)
Theorem resolve_branch (msg : task) (os : openshift_info) (p b : string) :
  projectName msg = JStr p ->
  type msg = JStr "branch" ->
  branch msg = JStr b ->
  exists r, resolve msg (Some os) = Ok r
    /\ openshiftProject r = JStr (ocsafety_str p ++ "-" ++ ocsafety_str b)
    /\ environmentName r = JStr b.
Proof.
  intros Hp Ht Hb.
  rewrite (resolve_branch_value msg os p b Hp Ht Hb).
  eexists. split; [reflexivity|]. split; reflexivity.
Qed.

Lemma resolve_branch_witness :
  exists r, resolve Scenario.branch_task (Some Scenario.cluster) = Ok r
    /\ openshiftProject r = JStr "my-project-feature-x"
    /\ environmentName r = JStr "feature/X".
Proof.
  exact (resolve_branch Scenario.branch_task Scenario.cluster
           "My_Project" "feature/X" eq_refl eq_refl eq_refl).
Defined.

(** A valid pull-request task numbered 10^21 gets a cluster project name
    with a plus sign in it: the number is printed with an exponent. *)
Lemma huge_number_gives_illegal_name :
  valid_task Scenario.huge_pr_task = true
  /\ resolve Scenario.huge_pr_task (Some Scenario.cluster)
     = Ok (mkNames "acme" "https://console.example" (JStr "secret")
             (JStr "acme-pr-1e+21") (JStr "pr-1e+21"))
  /\ ~ legal_cluster_name Scenario.huge_pr_task Scenario.cluster.
Proof.
  split; [reflexivity|].
  assert (H : resolve Scenario.huge_pr_task (Some Scenario.cluster)
              = Ok (mkNames "acme" "https://console.example" (JStr "secret")
                      (JStr "acme-pr-1e+21") (JStr "pr-1e+21")))
    by (vm_compute; reflexivity).
  split; [exact H|].
  intros [r [s [Hr [Hs Hsafe]]]].
  rewrite H in Hr. injection Hr as <-.
  cbn [openshiftProject] in Hs. injection Hs as <-.
  vm_compute in Hsafe. discriminate.
Qed.

(** C8, as the code has it.  For every valid task whose pull-request number,
    if it has one, is printed as plain digits, the derived cluster project
    name consists only of lower-case letters, digits and hyphens. *)
Theorem cluster_name_is_legal (msg : task) (os : openshift_info) :
  valid_task msg = true ->
  plain_number msg = true ->
  exists r s, resolve msg (Some os) = Ok r
    /\ openshiftProject r = JStr s
    /\ all_safe s = true.
Proof.
  unfold valid_task, plain_number, resolve.
  destruct (projectName msg) as [| |p|]; try discriminate.
  cbn [ocsafety and_then].
  destruct (strict_eq_str (type msg) "pullrequest").
  - destruct (pullrequestNumber msg) as [| | |n]; try discriminate.
    intros _ Hplain. do 2 eexists. split; [reflexivity|]. split; [reflexivity|].
    cbn [to_string].
    rewrite !all_safe_app, all_safe_ocsafety_str,
      (all_safe_number_to_string n Hplain).
    reflexivity.
  - destruct (strict_eq_str (type msg) "branch"); try discriminate.
    destruct (branch msg) as [| |b|]; try discriminate.
    intros _ _. cbn [ocsafety and_then].
    do 2 eexists. split; [reflexivity|]. split; [reflexivity|].
    rewrite !all_safe_app, !all_safe_ocsafety_str. reflexivity.
Qed.

Lemma cluster_name_is_legal_witness :
  valid_task Scenario.capitals_pr_task = true
  /\ plain_number Scenario.capitals_pr_task = true
  /\ exists r s, resolve Scenario.capitals_pr_task (Some Scenario.cluster) = Ok r
       /\ openshiftProject r = JStr s
       /\ all_safe s = true.
Proof.
  split; [reflexivity|]. split; [reflexivity|].
  apply (cluster_name_is_legal Scenario.capitals_pr_task Scenario.cluster);
    reflexivity.
Defined.

(** Every integer of magnitude below 2^53 is printed as plain digits, digit
    for digit. *)
Lemma safe_integer_is_plain (n : Z) :
  Z.abs n < 2 ^ 53 ->
  plain_decimal n = true /\ number_to_string n = decimal n.
Proof.
  intros H. apply Z.ltb_lt in H.
  unfold plain_decimal, number_to_string. now rewrite H.
Qed.

(** ** The removal protocol *)

Section Protocol.

Variable w : world.
Variable msg : task.
Variable info : option openshift_info.
Variable n : names.

(** The run got past name resolution with the names [n]. *)
Hypothesis Hinfo : info_answer w = Ok info.
Hypothesis Hnames : resolve msg info = Ok n.

Lemma run_not_found (err : js_error) :
  projectsGet_answer w = Throw err ->
  code_is_404 err = true ->
  messageConsumer w msg
  = ((preamble msg n ++ [log_assumed_removed n; finished_event msg n])%list, Ok tt).
Proof.
  intros Hget H404. unfold messageConsumer, check_exists.
  rewrite Hinfo. cbn [emit await bind]. rewrite Hnames, Hget.
  cbn [lift try_catch bind emit await ret]. rewrite H404. reflexivity.
Qed.

Lemma run_probe_error (err : js_error) :
  projectsGet_answer w = Throw err ->
  code_is_404 err = false ->
  messageConsumer w msg = ((preamble msg n ++ [log_error err])%list, Throw new_Error).
Proof.
  intros Hget H404. unfold messageConsumer, check_exists.
  rewrite Hinfo. cbn [emit await bind]. rewrite Hnames, Hget.
  cbn [lift try_catch bind emit await ret]. rewrite H404. reflexivity.
Qed.

Lemma run_delete_error (u : unit) (err : js_error) :
  projectsGet_answer w = Ok u ->
  projectsDelete_answer w = Throw err ->
  messageConsumer w msg
  = ((preamble msg n ++ [call_delete n; log_error err])%list, Throw new_Error).
Proof.
  intros Hget Hdel. unfold messageConsumer, check_exists, remove_project.
  rewrite Hinfo. cbn [emit await bind]. rewrite Hnames, Hget, Hdel.
  reflexivity.
Qed.

Lemma run_registry_error (u v : unit) (err : js_error) :
  projectsGet_answer w = Ok u ->
  projectsDelete_answer w = Ok v ->
  deleteEnvironment_answer w = Throw err ->
  messageConsumer w msg
  = ((preamble msg n ++ [call_delete n; finished_event msg n;
                   call_deleteEnvironment msg n; log_error err])%list,
     Throw new_Error).
Proof.
  intros Hget Hdel Hreg.
  unfold messageConsumer, check_exists, remove_project, update_api.
  rewrite Hinfo. cbn [emit await bind]. rewrite Hnames, Hget, Hdel, Hreg.
  reflexivity.
Qed.

Lemma run_removed (u v x : unit) :
  projectsGet_answer w = Ok u ->
  projectsDelete_answer w = Ok v ->
  deleteEnvironment_answer w = Ok x ->
  messageConsumer w msg
  = ((preamble msg n ++ [call_delete n; finished_event msg n;
                   call_deleteEnvironment msg n; log_deleted_in_api n])%list,
     Ok tt).
Proof.
  intros Hget Hdel Hreg.
  unfold messageConsumer, check_exists, remove_project, update_api.
  rewrite Hinfo. cbn [emit await bind]. rewrite Hnames, Hget, Hdel, Hreg.
  reflexivity.
Qed.

End Protocol.

Lemma run_reaches_probe (w : world) (msg : task) (info : option openshift_info)
    (n : names) :
  info_answer w = Ok info ->
  resolve msg info = Ok n ->
  exists rest, trace (messageConsumer w msg) = (preamble msg n ++ rest)%list.
Proof.
  intros Hinfo Hnames.
  destruct (projectsGet_answer w) as [u|e] eqn:Hget.
  - destruct (projectsDelete_answer w) as [v|e] eqn:Hdel.
    + destruct (deleteEnvironment_answer w) as [x|e] eqn:Hreg.
      * rewrite (run_removed w msg info n Hinfo Hnames u v x Hget Hdel Hreg).
        eexists; reflexivity.
      * rewrite (run_registry_error w msg info n Hinfo Hnames u v e Hget Hdel Hreg).
        eexists; reflexivity.
    + rewrite (run_delete_error w msg info n Hinfo Hnames u e Hget Hdel).
      eexists; reflexivity.
  - destruct (code_is_404 e) eqn:H404.
    + rewrite (run_not_found w msg info n Hinfo Hnames e Hget H404).
      eexists; reflexivity.
    + rewrite (run_probe_error w msg info n Hinfo Hnames e Hget H404).
      eexists; reflexivity.
Qed.

(** C1.  When the existence probe answers 404 the run skips the delete call,
    returns normally and sends exactly one success event; it also returns
    without updating the registry. *)
Theorem not_found_returns_early (w : world) (msg : task)
    (info : option openshift_info) (n : names) (err : js_error) :
  info_answer w = Ok info ->
  resolve msg info = Ok n ->
  projectsGet_answer w = Throw err ->
  code_is_404 err = true ->
  outcome (messageConsumer w msg) = Ok tt
  /\ count is_cluster_delete (trace (messageConsumer w msg)) = 0%nat
  /\ count is_success_event (trace (messageConsumer w msg)) = 1%nat
  /\ count is_registry_update (trace (messageConsumer w msg)) = 0%nat.
Proof.
  intros Hinfo Hnames Hget H404.
  rewrite (run_not_found w msg info n Hinfo Hnames err Hget H404).
  repeat split.
Qed.

Lemma not_found_returns_early_witness :
  outcome (messageConsumer Scenario.already_removed Scenario.branch_task) = Ok tt
  /\ count is_cluster_delete
       (trace (messageConsumer Scenario.already_removed Scenario.branch_task)) = 0%nat
  /\ count is_success_event
       (trace (messageConsumer Scenario.already_removed Scenario.branch_task)) = 1%nat
  /\ count is_registry_update
       (trace (messageConsumer Scenario.already_removed Scenario.branch_task)) = 0%nat.
Proof.
  apply (not_found_returns_early Scenario.already_removed Scenario.branch_task
           (Some Scenario.cluster)
           (mkNames "my-project" "https://console.example" (JStr "secret")
              (JStr "my-project-feature-x") (JStr "feature/X"))
           Scenario.not_found); reflexivity.
Defined.

(** ** Order of the side effects *)

(** In the pull-request scenario with every call succeeding, the success
    event is already out when the registry update is made. *)
Lemma success_event_precedes_registry_update :
  ~ success_only_after_registry Scenario.all_fine Scenario.pr_task.
Proof.
  unfold success_only_after_registry. vm_compute. discriminate.
Qed.

(** C2, as the code has it.  When the project exists and the delete call
    succeeds, the run performs, in this order: the existence probe, the delete
    call, the success event, the registry update, and one closing log line
    that tells whether the registry update succeeded. *)
Theorem success_event_follows_delete (w : world) (msg : task)
    (info : option openshift_info) (n : names) (u v : unit) :
  info_answer w = Ok info ->
  resolve msg info = Ok n ->
  projectsGet_answer w = Ok u ->
  projectsDelete_answer w = Ok v ->
  trace (messageConsumer w msg)
  = [log_received msg; GetOpenShiftInfoForProject (projectName msg);
     log_will_remove n; call_get n; call_delete n; finished_event msg n;
     call_deleteEnvironment msg n;
     match deleteEnvironment_answer w with
     | Ok _ => log_deleted_in_api n
     | Throw err => log_error err
     end].
Proof.
  intros Hinfo Hnames Hget Hdel.
  destruct (deleteEnvironment_answer w) as [x|e] eqn:Hreg.
  - now rewrite (run_removed w msg info n Hinfo Hnames u v x Hget Hdel Hreg).
  - now rewrite (run_registry_error w msg info n Hinfo Hnames u v e Hget Hdel Hreg).
Qed.

Lemma success_event_follows_delete_witness :
  trace (messageConsumer Scenario.registry_down Scenario.pr_task)
  = [log_received Scenario.pr_task; GetOpenShiftInfoForProject (JStr "acme");
     Logger Info (LogText
       "Will remove OpenShift Project acme-pr-42 on https://console.example");
     ProjectsGet "https://console.example" (JStr "secret") (JStr "acme-pr-42");
     ProjectsDelete "https://console.example" (JStr "secret") (JStr "acme-pr-42");
     SendToLagoonLogs "success" (JStr "acme") "" "task:remove-openshift:finished"
       MetaEmpty "*[acme]* remove `acme-pr-42`";
     DeleteEnvironment (JStr "pr-42") (JStr "acme");
     Logger Err (LogError Scenario.unavailable)].
Proof.
  exact (success_event_follows_delete Scenario.registry_down Scenario.pr_task
           (Some Scenario.cluster)
           (mkNames "acme" "https://console.example" (JStr "secret")
              (JStr "acme-pr-42") (JStr "pr-42"))
           tt tt eq_refl eq_refl eq_refl eq_refl).
Defined.

(** The calls to the collaborators are sequential: a delete call is made only
    after the probe succeeded, a registry update only after the delete call
    succeeded. *)
Lemma calls_wait_for_success (w : world) (msg : task) :
  (count is_cluster_delete (trace (messageConsumer w msg)) <> 0%nat ->
   exists u, projectsGet_answer w = Ok u)
  /\ (count is_registry_update (trace (messageConsumer w msg)) <> 0%nat ->
      exists u v, projectsGet_answer w = Ok u /\ projectsDelete_answer w = Ok v).
Proof.
  destruct (info_answer w) as [info|e0] eqn:Hinfo.
  2:{ unfold messageConsumer. rewrite Hinfo. split; intros H; now elim H. }
  destruct (resolve msg info) as [n|e0] eqn:Hnames.
  2:{ unfold messageConsumer. rewrite Hinfo. cbn [emit await bind].
      rewrite Hnames. split; intros H; now elim H. }
  destruct (projectsGet_answer w) as [u|e] eqn:Hget.
  - split; [intros _; now exists u|].
    destruct (projectsDelete_answer w) as [v|e] eqn:Hdel.
    + intros _. now exists u, v.
    + rewrite (run_delete_error w msg info n Hinfo Hnames u e Hget Hdel).
      intros H; now elim H.
  - destruct (code_is_404 e) eqn:H404.
    + rewrite (run_not_found w msg info n Hinfo Hnames e Hget H404).
      split; intros H; now elim H.
    + rewrite (run_probe_error w msg info n Hinfo Hnames e Hget H404).
      split; intros H; now elim H.
Qed.

(** ** Tasks of an unrecognised type *)

(** The pull-request task without its [type] is not rejected: with every call
    succeeding the run returns normally, after calling the cluster and the
    registry. *)
Lemma untyped_task_is_not_rejected :
  ~ rejected_before_calls Scenario.all_fine Scenario.untyped_task.
Proof.
  intros [[e He] _]. vm_compute in He. discriminate.
Qed.

(** C3, as the code has it.  For a task whose type is missing or is not one
    of the two recognised values, whose project name is a string and for
    which the API lookup returns usable cluster information, name resolution
    raises nothing: both derived names stay undefined, and the run goes on to
    the existence probe, which it makes with the undefined project name. *)
Theorem unknown_type_resolves_to_undefined (w : world) (msg : task)
    (os : openshift_info) (p : string) :
  unknown_type msg = true ->
  projectName msg = JStr p ->
  info_answer w = Ok (Some os) ->
  exists r rest,
    resolve msg (Some os) = Ok r
    /\ openshiftProject r = JUndefined
    /\ environmentName r = JUndefined
    /\ trace (messageConsumer w msg)
       = ([log_received msg; GetOpenShiftInfoForProject (projectName msg);
           log_will_remove r;
           ProjectsGet (openshiftConsole r) (openshiftToken r) JUndefined]
          ++ rest)%list.
Proof.
  intros Hty Hp Hinfo.
  assert (Hres : resolve msg (Some os)
                 = Ok (mkNames (ocsafety_str p)
                         (strip_trailing_slash (console_url os))
                         (js_or (token os) (JStr "")) JUndefined JUndefined)).
  { unfold resolve, unknown_type in *. rewrite Hp. cbn [ocsafety and_then].
    destruct (strict_eq_str (type msg) "pullrequest"); [discriminate|].
    destruct (strict_eq_str (type msg) "branch"); [discriminate|].
    reflexivity. }
  destruct (run_reaches_probe w msg _ _ Hinfo Hres) as [rest Hrest].
  eexists; exists rest.
  split; [exact Hres|]. split; [reflexivity|]. split; [reflexivity|].
  exact Hrest.
Qed.

Lemma unknown_type_resolves_to_undefined_witness :
  unknown_type Scenario.untyped_task = true
  /\ exists r rest,
       resolve Scenario.untyped_task (Some Scenario.cluster) = Ok r
       /\ openshiftProject r = JUndefined
       /\ environmentName r = JUndefined
       /\ trace (messageConsumer Scenario.all_fine Scenario.untyped_task)
          = ([log_received Scenario.untyped_task;
              GetOpenShiftInfoForProject (projectName Scenario.untyped_task);
              log_will_remove r;
              ProjectsGet (openshiftConsole r) (openshiftToken r) JUndefined]
             ++ rest)%list.
Proof.
  split; [reflexivity|].
  apply (unknown_type_resolves_to_undefined Scenario.all_fine
           Scenario.untyped_task Scenario.cluster "acme"); reflexivity.
Defined.

(** ** A project that disappears between probe and delete *)

(** The probe finds the project, the delete call answers 404: the run ends in
    an error. *)
Lemma delete_not_found_is_an_error :
  ~ not_an_error Scenario.removed_meanwhile Scenario.pr_task.
Proof.
  unfold not_an_error. vm_compute. discriminate.
Qed.

(** C4, as the code has it.  When the probe finds the project and the delete
    call then fails with a 404, the run handles it as it handles every failed
    delete: it logs the error and throws a new [Error], sends no success event
    and leaves the registry alone. *)
Theorem delete_not_found_is_thrown (w : world) (msg : task)
    (info : option openshift_info) (n : names) (u : unit) (err : js_error) :
  info_answer w = Ok info ->
  resolve msg info = Ok n ->
  projectsGet_answer w = Ok u ->
  projectsDelete_answer w = Throw err ->
  code_is_404 err = true ->
  messageConsumer w msg
  = ([log_received msg; GetOpenShiftInfoForProject (projectName msg);
      log_will_remove n; call_get n; call_delete n; log_error err],
     Throw new_Error)
  /\ count is_success_event (trace (messageConsumer w msg)) = 0%nat
  /\ count is_registry_update (trace (messageConsumer w msg)) = 0%nat.
Proof.
  intros Hinfo Hnames Hget Hdel _.
  rewrite (run_delete_error w msg info n Hinfo Hnames u err Hget Hdel).
  repeat split.
Qed.

Lemma delete_not_found_is_thrown_witness :
  code_is_404 Scenario.not_found = true
  /\ outcome (messageConsumer Scenario.removed_meanwhile Scenario.pr_task)
     = Throw new_Error
  /\ count is_success_event
       (trace (messageConsumer Scenario.removed_meanwhile Scenario.pr_task)) = 0%nat.
Proof.
  split; [reflexivity|].
  destruct (delete_not_found_is_thrown Scenario.removed_meanwhile
              Scenario.pr_task (Some Scenario.cluster)
              (mkNames "acme" "https://console.example" (JStr "secret")
                 (JStr "acme-pr-42") (JStr "pr-42"))
              tt Scenario.not_found eq_refl eq_refl eq_refl eq_refl eq_refl)
    as [Hrun [Hsuccess _]].
  split; [now rewrite Hrun | exact Hsuccess].
Defined.

(** ** Errors handed to the consumer *)

(** C9.  When the existence probe fails with something other than a 404, or
    the delete call fails, or the registry update fails, the error that
    reaches the consumer is a fresh [Error] with an empty message and no
    code, whatever the failure was; rendered in an event it reads "Error". *)
Theorem propagated_error_has_no_message (w : world) (msg : task)
    (info : option openshift_info) (n : names) (err : js_error) :
  info_answer w = Ok info ->
  resolve msg info = Ok n ->
  call_fails w err ->
  exists e, outcome (messageConsumer w msg) = Throw e
    /\ e = new_Error
    /\ err_message e = ""
    /\ err_code e = None
    /\ error_to_string e = "Error".
Proof.
  intros Hinfo Hnames Hfail. exists new_Error.
  split; [|repeat split].
  destruct Hfail as [Hget H404 | u Hget Hdel | u v Hget Hdel Hreg].
  - now rewrite (run_probe_error w msg info n Hinfo Hnames err Hget H404).
  - now rewrite (run_delete_error w msg info n Hinfo Hnames u err Hget Hdel).
  - now rewrite (run_registry_error w msg info n Hinfo Hnames u v err Hget Hdel Hreg).
Qed.

Lemma propagated_error_has_no_message_witness :
  call_fails Scenario.registry_down Scenario.unavailable
  /\ exists e,
       outcome (messageConsumer Scenario.registry_down Scenario.pr_task) = Throw e
       /\ e = new_Error
       /\ err_message e = ""
       /\ err_code e = None
       /\ error_to_string e = "Error".
Proof.
  assert (H : call_fails Scenario.registry_down Scenario.unavailable)
    by (apply (RegistryFails _ _ tt tt); reflexivity).
  split; [exact H|].
  apply (propagated_error_has_no_message Scenario.registry_down Scenario.pr_task
           (Some Scenario.cluster)
           (mkNames "acme" "https://console.example" (JStr "secret")
              (JStr "acme-pr-42") (JStr "pr-42"))
           Scenario.unavailable eq_refl eq_refl H).
Defined.

(** ** The dead-letter handler *)

Lemma append_empty_r (s : string) : s ++ "" = s.
Proof.
  induction s as [|c s IH]; simpl; [reflexivity|].
  now rewrite IH.
Qed.

Lemma append_assoc (a b c : string) : (a ++ b) ++ c = a ++ b ++ c.
Proof.
  induction a as [|x a IH]; simpl; [reflexivity|].
  now rewrite IH.
Qed.

(** The message of an error is the end of its rendering as a string. *)
Lemma error_to_string_ends_with_message (e : js_error) :
  exists front, error_to_string e = front ++ err_message e.
Proof.
  unfold error_to_string.
  destruct (String.eqb (err_name e) "").
  - now exists "".
  - destruct (String.eqb (err_message e) "") eqn:E.
    + apply String.eqb_eq in E. rewrite E.
      exists (err_name e). now rewrite append_empty_r.
    + exists (err_name e ++ ": "). now rewrite append_assoc.
Qed.

(** The dead-letter event of the branch scenario tells nothing of three
    attempts, and for the pull-request scenario the handler's project name
    lacks the [pr] infix that name resolution inserts. *)
Lemma dead_letter_event_falls_short :
  ~ dead_letter_reports_attempts Scenario.branch_task Scenario.unavailable 3
  /\ ~ handler_name_matches Scenario.pr_task.
Proof.
  split.
  - intros [ev [Hin Hrep]].
    destruct Hin as [<- | []].
    vm_compute in Hrep. discriminate.
  - intros H.
    specialize (H Scenario.cluster _ eq_refl).
    vm_compute in H. discriminate.
Qed.

(** C5, as the code has it.  For every task and last error the dead-letter
    handler sends exactly one error event.  Its text carries the last error
    rendered as a string, which ends with the error's message.  Its metadata
    is empty: the handler is given the task and the last error only, and
    reports no attempt count.  For a branch task with a non-empty branch the
    project named in the text is the cluster project name that name
    resolution derives for the task. *)
Theorem deathHandler_sends_one_error_event (msg : task) (lastError : js_error) :
  exists name front,
    deathHandler msg lastError
    = ([SendToLagoonLogs "error" (projectName msg) ""
          "task:remove-openshift:error" MetaEmpty
          ("*[" ++ to_string (projectName msg) ++ "]* remove `" ++ name
                ++ "` ERROR:" ++ nl ++ "```" ++ nl
                ++ error_to_string lastError ++ nl ++ "```")],
       Ok tt)
    /\ error_to_string lastError = front ++ err_message lastError
    /\ (forall (os : openshift_info) (p b : string),
          projectName msg = JStr p ->
          type msg = JStr "branch" ->
          branch msg = JStr b ->
          b <> "" ->
          exists r, resolve msg (Some os) = Ok r
                    /\ openshiftProject r = JStr name).
Proof.
  destruct (error_to_string_ends_with_message lastError) as [front Hfront].
  exists (handler_project msg), front.
  split; [reflexivity|]. split; [exact Hfront|].
  intros os p b Hp Ht Hb Hne.
  eexists. split; [exact (resolve_branch_value msg os p b Hp Ht Hb)|].
  cbn [openshiftProject]. f_equal.
  unfold handler_project, js_or. rewrite Hp, Hb. cbn [truthy to_string].
  apply String.eqb_neq in Hne. rewrite Hne. cbn [negb].
  rewrite !ocsafety_str_app. reflexivity.
Qed.

Lemma deathHandler_sends_one_error_event_witness :
  exists r,
    deathHandler Scenario.branch_task Scenario.unavailable
    = ([SendToLagoonLogs "error" (JStr "My_Project") ""
          "task:remove-openshift:error" MetaEmpty
          ("*[My_Project]* remove `my-project-feature-x` ERROR:" ++ nl
             ++ "```" ++ nl ++ "Error: service unavailable" ++ nl ++ "```")],
       Ok tt)
    /\ resolve Scenario.branch_task (Some Scenario.cluster) = Ok r
    /\ openshiftProject r = JStr "my-project-feature-x".
Proof.
  destruct (deathHandler_sends_one_error_event Scenario.branch_task
              Scenario.unavailable) as [name [front [Hev [_ Hname]]]].
  assert (Hb : "feature/X" <> "") by discriminate.
  destruct (Hname Scenario.cluster "My_Project" "feature/X"
              eq_refl eq_refl eq_refl Hb) as [r [Hr Hn]].
  exists r. split; [reflexivity|]. split; [exact Hr|].
  vm_compute in Hr. injection Hr as <-. reflexivity.
Defined.

(** * Further properties of the worker *)

(** ** The sanitising transform, continued *)

Lemma map_string_length (f : ascii -> ascii) (s : string) :
  String.length (map_string f s) = String.length s.
Proof.
  induction s as [|c s IH]; simpl; [reflexivity|].
  now rewrite IH.
Qed.

Lemma ocsafety_str_length_eq (s : string) :
  String.length (ocsafety_str s) = String.length s.
Proof.
  unfold ocsafety_str, toLocaleLowerCase.
  now rewrite !map_string_length.
Qed.

Lemma lower_char_idempotent (c : ascii) : lower_char (lower_char c) = lower_char c.
Proof.
  destruct c as [[] [] [] [] [] [] [] []]; reflexivity.
Qed.

Lemma toLocaleLowerCase_idempotent (s : string) :
  toLocaleLowerCase (toLocaleLowerCase s) = toLocaleLowerCase s.
Proof.
  unfold toLocaleLowerCase.
  induction s as [|c s IH]; simpl; [reflexivity|].
  now rewrite lower_char_idempotent, IH.
Qed.

Lemma ocsafety_of_parts (a b : string) :
  ocsafety_str (a ++ "-" ++ b) = ocsafety_str a ++ "-" ++ ocsafety_str b.
Proof.
  rewrite ocsafety_str_app.
  change ("-" ++ b) with (String "-" b).
  reflexivity.
Qed.

(** X2.  Sanitising two strings joined by a hyphen gives the two sanitised
    strings joined by a hyphen: the handlers, which sanitise the joined text,
    and the worker, which joins the sanitised parts, compute the same name
    from the same two parts. *)
Theorem ocsafety_of_joined (a b : string) :
  ocsafety_str (a ++ "-" ++ b) = ocsafety_str a ++ "-" ++ ocsafety_str b.
Proof.
  rewrite ocsafety_str_app.
  change ("-" ++ b) with (String "-" b).
  reflexivity.
Qed.

(** X3.  Sanitising ignores letter case: lower-casing the input first does
    not change the result, so two names that differ only in case are given
    the same cluster name. *)
Theorem ocsafety_ignores_case (a b : string) :
  toLocaleLowerCase a = toLocaleLowerCase b ->
  ocsafety_str a = ocsafety_str b
  /\ ocsafety_str (toLocaleLowerCase a) = ocsafety_str b.
Proof.
  intros H. unfold ocsafety_str.
  rewrite toLocaleLowerCase_idempotent. now rewrite H.
Qed.

Lemma ocsafety_ignores_case_witness :
  toLocaleLowerCase "Feature/Login" = toLocaleLowerCase "feature/LOGIN"
  /\ ocsafety_str "Feature/Login" = ocsafety_str "feature/LOGIN"
  /\ ocsafety_str (toLocaleLowerCase "Feature/Login") = ocsafety_str "feature/LOGIN".
Proof.
  split; [reflexivity|].
  apply (ocsafety_ignores_case "Feature/Login" "feature/LOGIN").
  reflexivity.
Defined.

(** ** The console URL and the token *)

Lemma strip_added_slash (t : string) : strip_trailing_slash (t ++ "/") = t.
Proof.
  induction t as [|c t IH]; [reflexivity|].
  change (String c t ++ "/") with (String c (t ++ "/")).
  cbn [strip_trailing_slash].
  destruct t as [|c' t']; [reflexivity|].
  change (String c' t' ++ "/") with (String c' (t' ++ "/")) in *.
  now rewrite IH.
Qed.

Lemma strip_without_slash (s : string) :
  ends_with_slash s = false -> strip_trailing_slash s = s.
Proof.
  induction s as [|c s IH]; [reflexivity|].
  cbn [strip_trailing_slash ends_with_slash].
  destruct s as [|c' s'].
  - now intros ->.
  - intros H. now rewrite (IH H).
Qed.

(** X4.  The trailing-slash removal applied to the console URL takes away
    exactly one final slash, and leaves a URL that does not end in a slash
    as it is. *)
Theorem strip_trailing_slash_one (s : string) :
  strip_trailing_slash (s ++ "/") = s
  /\ (ends_with_slash s = false -> strip_trailing_slash s = s).
Proof.
  split; [apply strip_added_slash | apply strip_without_slash].
Qed.

Lemma strip_trailing_slash_one_witness :
  ends_with_slash "https://console.example" = false
  /\ strip_trailing_slash "https://console.example/" = "https://console.example"
  /\ strip_trailing_slash "https://console.example" = "https://console.example".
Proof.
  split; [reflexivity|].
  split.
  - exact (proj1 (strip_trailing_slash_one "https://console.example")).
  - apply (proj2 (strip_trailing_slash_one "https://console.example")).
    reflexivity.
Defined.

(** X5.  The bearer token given to the cluster client is the token of the
    API's reply when that is truthy and the empty string otherwise; so it is
    never [undefined] or [null]. *)
Theorem token_is_never_missing (msg : task) (os : openshift_info) (r : names) :
  resolve msg (Some os) = Ok r ->
  openshiftToken r = (if truthy (token os) then token os else JStr "")
  /\ openshiftToken r <> JUndefined
  /\ openshiftToken r <> JNull.
Proof.
  intros Hres.
  assert (Htok : openshiftToken r = js_or (token os) (JStr "")).
  { revert Hres. unfold resolve.
    destruct (ocsafety (projectName msg)) as [slug|e]; [|discriminate].
    cbn [and_then].
    destruct (strict_eq_str (type msg) "pullrequest").
    - intros H. now injection H as <-.
    - destruct (strict_eq_str (type msg) "branch").
      + destruct (ocsafety (branch msg)) as [b|e]; [|discriminate].
        intros H. now injection H as <-.
      + intros H. now injection H as <-. }
  rewrite Htok. unfold js_or.
  split; [reflexivity|].
  destruct (truthy (token os)) eqn:Ht.
  - split; intros E; rewrite E in Ht; discriminate.
  - split; discriminate.
Qed.

Lemma token_is_never_missing_witness :
  openshiftToken
    (mkNames "acme" "https://console.example" (JStr "")
       (JStr "acme-pr-42") (JStr "pr-42")) = JStr ""
  /\ openshiftToken
       (mkNames "acme" "https://console.example" (JStr "")
          (JStr "acme-pr-42") (JStr "pr-42")) <> JUndefined
  /\ openshiftToken
       (mkNames "acme" "https://console.example" (JStr "")
          (JStr "acme-pr-42") (JStr "pr-42")) <> JNull.
Proof.
  exact (token_is_never_missing Scenario.pr_task Scenario.tokenless_cluster _
           eq_refl).
Defined.

(** ** Name resolution, continued *)

(** X6.  A branch named [pr-N] and the pull request number N of the same
    project are one and the same to the worker, when N is printed as plain
    digits: name resolution gives both the same cluster project name and the
    same registry environment name. *)
Theorem branch_named_like_pullrequest (msgP msgB : task) (os : openshift_info)
    (p : string) (n : Z) :
  plain_decimal n = true ->
  projectName msgP = JStr p ->
  type msgP = JStr "pullrequest" ->
  pullrequestNumber msgP = JNum n ->
  projectName msgB = JStr p ->
  type msgB = JStr "branch" ->
  branch msgB = JStr ("pr-" ++ number_to_string n) ->
  exists r,
    resolve msgP (Some os) = Ok r
    /\ resolve msgB (Some os) = Ok r
    /\ openshiftProject r = JStr (ocsafety_str p ++ "-pr-" ++ number_to_string n)
    /\ environmentName r = JStr ("pr-" ++ number_to_string n).
Proof.
  intros Hplain HpP HtP Hn HpB HtB Hb.
  rewrite (resolve_pullrequest_value msgP os p HpP HtP), Hn.
  rewrite (resolve_branch_value msgB os p _ HpB HtB Hb).
  assert (Hfix : ocsafety_str ("pr-" ++ number_to_string n)
                 = "pr-" ++ number_to_string n).
  { apply ocsafety_str_fixed.
    rewrite all_safe_app, (all_safe_number_to_string n Hplain). reflexivity. }
  rewrite Hfix. cbn [to_string].
  eexists. split; [reflexivity|]. split; [reflexivity|]. split; reflexivity.
Qed.

Lemma branch_named_like_pullrequest_witness :
  plain_decimal 42 = true
  /\ exists r,
       resolve Scenario.pr_task (Some Scenario.cluster) = Ok r
       /\ resolve Scenario.lookalike_task (Some Scenario.cluster) = Ok r
       /\ openshiftProject r = JStr "acme-pr-42"
       /\ environmentName r = JStr "pr-42".
Proof.
  split; [reflexivity|].
  exact (branch_named_like_pullrequest Scenario.pr_task Scenario.lookalike_task
           Scenario.cluster "acme" 42
           eq_refl eq_refl eq_refl eq_refl eq_refl eq_refl eq_refl).
Defined.

(** X7.  A pull-request task without its number is not refused: the missing
    number is printed as [undefined], so the names are the sanitised project
    name followed by [-pr-undefined], and [pr-undefined]. *)
Theorem pullrequest_without_number (msg : task) (os : openshift_info) (p : string) :
  projectName msg = JStr p ->
  type msg = JStr "pullrequest" ->
  pullrequestNumber msg = JUndefined ->
  exists r,
    resolve msg (Some os) = Ok r
    /\ openshiftProject r = JStr (ocsafety_str p ++ "-pr-undefined")
    /\ environmentName r = JStr "pr-undefined".
Proof.
  intros Hp Ht Hn.
  rewrite (resolve_pullrequest_value msg os p Hp Ht), Hn.
  eexists. split; [reflexivity|]. split; reflexivity.
Qed.

Lemma pullrequest_without_number_witness :
  exists r,
    resolve Scenario.numberless_task (Some Scenario.cluster) = Ok r
    /\ openshiftProject r = JStr "acme-pr-undefined"
    /\ environmentName r = JStr "pr-undefined".
Proof.
  exact (pullrequest_without_number Scenario.numberless_task Scenario.cluster
           "acme" eq_refl eq_refl eq_refl).
Defined.

(** ** Runs that end before the existence probe *)

Lemma run_lookup_rejected (w : world) (msg : task) (e : js_error) :
  info_answer w = Throw e ->
  messageConsumer w msg
  = ([log_received msg; GetOpenShiftInfoForProject (projectName msg)], Throw e).
Proof.
  intros Hinfo. unfold messageConsumer. now rewrite Hinfo.
Qed.

Lemma run_resolve_throws (w : world) (msg : task)
    (info : option openshift_info) (e : js_error) :
  info_answer w = Ok info ->
  resolve msg info = Throw e ->
  messageConsumer w msg
  = ([log_received msg; GetOpenShiftInfoForProject (projectName msg);
      log_load_error msg e], Throw e).
Proof.
  intros Hinfo Hres. unfold messageConsumer.
  rewrite Hinfo. cbn [emit await bind]. now rewrite Hres.
Qed.

(** Splits a goal about [messageConsumer w msg] into the seven ways a run can
    go, and replaces the run by its trace and outcome in each. *)
Ltac run_cases w msg :=
  let info := fresh "info" in
  let n := fresh "n" in
  let e := fresh "e" in
  let u := fresh "u" in
  let v := fresh "v" in
  let x := fresh "x" in
  let Hinfo := fresh "Hinfo" in
  let Hnames := fresh "Hnames" in
  let Hget := fresh "Hget" in
  let Hdel := fresh "Hdel" in
  let Hreg := fresh "Hreg" in
  let H404 := fresh "H404" in
  destruct (info_answer w) as [info|e] eqn:Hinfo;
  [ destruct (resolve msg info) as [n|e] eqn:Hnames;
    [ destruct (projectsGet_answer w) as [u|e] eqn:Hget;
      [ destruct (projectsDelete_answer w) as [v|e] eqn:Hdel;
        [ destruct (deleteEnvironment_answer w) as [x|e] eqn:Hreg;
          [ rewrite (run_removed w msg info n Hinfo Hnames u v x Hget Hdel Hreg)
          | rewrite (run_registry_error w msg info n Hinfo Hnames u v e
                       Hget Hdel Hreg) ]
        | rewrite (run_delete_error w msg info n Hinfo Hnames u e Hget Hdel) ]
      | destruct (code_is_404 e) eqn:H404;
        [ rewrite (run_not_found w msg info n Hinfo Hnames e Hget H404)
        | rewrite (run_probe_error w msg info n Hinfo Hnames e Hget H404) ] ]
    | rewrite (run_resolve_throws w msg info e Hinfo Hnames) ]
  | rewrite (run_lookup_rejected w msg e Hinfo) ].

(** X8.  A failure before the existence probe reaches the consumer as the
    very error that was raised, message included: a rejected API lookup, or a
    TypeError from deriving the names.  Such a run calls neither the cluster
    nor the registry update and sends no event. *)
Theorem early_failure_keeps_error (w : world) (msg : task) (e : js_error) :
  early_failure w msg e ->
  outcome (messageConsumer w msg) = Throw e
  /\ count is_cluster_get (trace (messageConsumer w msg)) = 0%nat
  /\ count is_cluster_delete (trace (messageConsumer w msg)) = 0%nat
  /\ count is_registry_update (trace (messageConsumer w msg)) = 0%nat
  /\ count is_success_event (trace (messageConsumer w msg)) = 0%nat.
Proof.
  intros [Hinfo | info Hinfo Hres].
  - rewrite (run_lookup_rejected w msg e Hinfo). repeat split.
  - rewrite (run_resolve_throws w msg info e Hinfo Hres). repeat split.
Qed.

Lemma early_failure_keeps_error_witness :
  early_failure Scenario.api_down Scenario.pr_task Scenario.unavailable
  /\ outcome (messageConsumer Scenario.api_down Scenario.pr_task)
     = Throw Scenario.unavailable
  /\ count is_cluster_get
       (trace (messageConsumer Scenario.api_down Scenario.pr_task)) = 0%nat.
Proof.
  assert (H : early_failure Scenario.api_down Scenario.pr_task Scenario.unavailable)
    by (apply LookupRejected; reflexivity).
  split; [exact H|].
  destruct (early_failure_keeps_error Scenario.api_down Scenario.pr_task
              Scenario.unavailable H) as [Hout [Hget _]].
  split; assumption.
Defined.

(** X9.  With a usable reply from the API, name derivation succeeds exactly
    when the fields it sanitises hold strings: the project name, and for a
    task of type branch the branch.  No other field or value makes it
    throw. *)
Theorem resolve_succeeds_iff (msg : task) (os : openshift_info) :
  (exists r, resolve msg (Some os) = Ok r) <-> cannot_sanitise msg = false.
Proof.
  unfold resolve, cannot_sanitise.
  destruct (projectName msg) as [| |p|]; cbn [ocsafety and_then is_string negb orb];
    try (split; [intros [r H]; discriminate | discriminate]).
  destruct (strict_eq_str (type msg) "pullrequest") eqn:Hpr.
  - assert (Hbr : strict_eq_str (type msg) "branch" = false).
    { destruct (type msg) as [| |t|]; try reflexivity.
      cbn [strict_eq_str] in *. apply String.eqb_eq in Hpr. now subst t. }
    rewrite Hbr. split; [reflexivity | intros _; eexists; reflexivity].
  - destruct (strict_eq_str (type msg) "branch"); cbn [andb].
    + destruct (branch msg) as [| |b|]; cbn [ocsafety and_then is_string negb];
        try (split; [intros [r H]; discriminate | discriminate]).
      split; [reflexivity | intros _; eexists; reflexivity].
    + split; [reflexivity | intros _; eexists; reflexivity].
Qed.

Lemma resolve_succeeds_iff_witness :
  cannot_sanitise Scenario.branchless_task = true
  /\ ~ (exists r, resolve Scenario.branchless_task (Some Scenario.cluster) = Ok r).
Proof.
  split; [reflexivity|].
  intros H.
  apply (proj1 (resolve_succeeds_iff Scenario.branchless_task Scenario.cluster)) in H.
  discriminate H.
Defined.

(** X10.  A task of type branch that has no branch string is refused while
    the names are derived: the run logs a warning and throws a TypeError
    before any call to the cluster. *)
Theorem branch_without_branch_is_refused (w : world) (msg : task)
    (os : openshift_info) (p : string) :
  info_answer w = Ok (Some os) ->
  projectName msg = JStr p ->
  type msg = JStr "branch" ->
  is_string (branch msg) = false ->
  exists e,
    err_name e = "TypeError"
    /\ messageConsumer w msg
       = ([log_received msg; GetOpenShiftInfoForProject (projectName msg);
           log_load_error msg e], Throw e).
Proof.
  intros Hinfo Hp Ht Hb.
  assert (Hres : exists e, resolve msg (Some os) = Throw e
                           /\ err_name e = "TypeError").
  { unfold resolve. rewrite Hp, Ht. cbn [ocsafety and_then strict_eq_str].
    change (String.eqb "branch" "pullrequest") with false.
    rewrite String.eqb_refl. cbn iota.
    destruct (branch msg) as [| |b|]; try discriminate;
      cbn [ocsafety and_then]; eexists; split; reflexivity. }
  destruct Hres as [e [Hres Hname]].
  exists e. split; [exact Hname|].
  exact (run_resolve_throws w msg (Some os) e Hinfo Hres).
Qed.

Lemma branch_without_branch_is_refused_witness :
  is_string (branch Scenario.branchless_task) = false
  /\ exists e,
       err_name e = "TypeError"
       /\ messageConsumer Scenario.all_fine Scenario.branchless_task
          = ([log_received Scenario.branchless_task;
              GetOpenShiftInfoForProject (projectName Scenario.branchless_task);
              log_load_error Scenario.branchless_task e], Throw e).
Proof.
  split; [reflexivity|].
  apply (branch_without_branch_is_refused Scenario.all_fine
           Scenario.branchless_task Scenario.cluster "My_Project");
    reflexivity.
Defined.

(** ** Invariants of every run *)

(** X11.  Whatever the task and whatever the collaborators answer, one run
    looks the project up in the API exactly once, and makes at most one
    existence probe, one delete call and one registry update, and sends at
    most one success event. *)
Theorem effects_at_most_once (w : world) (msg : task) :
  count is_api_lookup (trace (messageConsumer w msg)) = 1%nat
  /\ (count is_cluster_get (trace (messageConsumer w msg)) <= 1)%nat
  /\ (count is_cluster_delete (trace (messageConsumer w msg)) <= 1)%nat
  /\ (count is_registry_update (trace (messageConsumer w msg)) <= 1)%nat
  /\ (count is_success_event (trace (messageConsumer w msg)) <= 1)%nat.
Proof.
  run_cases w msg; cbn; repeat split; auto.
Qed.

(** X12.  In every run the effects keep their order: the existence probe
    comes after the API lookup, a delete call after the probe, a success
    event after the probe, and a registry update after both the delete call
    and the success event. *)
Theorem effects_in_order (w : world) (msg : task) :
  preceded is_api_lookup is_cluster_get false (trace (messageConsumer w msg)) = true
  /\ preceded is_cluster_get is_cluster_delete false
       (trace (messageConsumer w msg)) = true
  /\ preceded is_cluster_get is_success_event false
       (trace (messageConsumer w msg)) = true
  /\ preceded is_cluster_delete is_registry_update false
       (trace (messageConsumer w msg)) = true
  /\ preceded is_success_event is_registry_update false
       (trace (messageConsumer w msg)) = true.
Proof.
  run_cases w msg; repeat split.
Qed.

(** X13.  A run that returns normally has sent exactly one success event, and
    has updated the registry if and only if it has made the delete call. *)
Theorem normal_return_reports_success (w : world) (msg : task) :
  outcome (messageConsumer w msg) = Ok tt ->
  count is_success_event (trace (messageConsumer w msg)) = 1%nat
  /\ count is_registry_update (trace (messageConsumer w msg))
     = count is_cluster_delete (trace (messageConsumer w msg)).
Proof.
  run_cases w msg; cbn [outcome snd]; intros H; try discriminate H;
    split; reflexivity.
Qed.

Lemma normal_return_reports_success_witness :
  count is_success_event
    (trace (messageConsumer Scenario.all_fine Scenario.pr_task)) = 1%nat
  /\ count is_registry_update
       (trace (messageConsumer Scenario.all_fine Scenario.pr_task))
     = count is_cluster_delete
         (trace (messageConsumer Scenario.all_fine Scenario.pr_task)).
Proof.
  apply (normal_return_reports_success Scenario.all_fine Scenario.pr_task).
  reflexivity.
Defined.

(** X14.  Once the names are derived, the answers of the cluster and of the
    registry decide the outcome: the run returns normally exactly when the
    probe answers 404 or all three calls succeed, and in every other case it
    throws a new [Error]. *)
Theorem outcome_by_answers (w : world) (msg : task)
    (info : option openshift_info) (n : names) :
  info_answer w = Ok info ->
  resolve msg info = Ok n ->
  outcome (messageConsumer w msg)
  = if answers_succeed w then Ok tt else Throw new_Error.
Proof.
  intros Hinfo Hnames. unfold answers_succeed.
  destruct (projectsGet_answer w) as [u|e] eqn:Hget.
  - destruct (projectsDelete_answer w) as [v|e] eqn:Hdel.
    + destruct (deleteEnvironment_answer w) as [x|e] eqn:Hreg.
      * now rewrite (run_removed w msg info n Hinfo Hnames u v x Hget Hdel Hreg).
      * now rewrite (run_registry_error w msg info n Hinfo Hnames u v e
                       Hget Hdel Hreg).
    + now rewrite (run_delete_error w msg info n Hinfo Hnames u e Hget Hdel).
  - destruct (code_is_404 e) eqn:H404.
    + now rewrite (run_not_found w msg info n Hinfo Hnames e Hget H404).
    + now rewrite (run_probe_error w msg info n Hinfo Hnames e Hget H404).
Qed.

Lemma outcome_by_answers_witness :
  outcome (messageConsumer Scenario.removed_meanwhile Scenario.pr_task)
  = Throw new_Error.
Proof.
  exact (outcome_by_answers Scenario.removed_meanwhile Scenario.pr_task
           (Some Scenario.cluster)
           (mkNames "acme" "https://console.example" (JStr "secret")
              (JStr "acme-pr-42") (JStr "pr-42"))
           eq_refl eq_refl).
Defined.

(** X15.  A task is delivered twice.  The first run deletes the project and
    fails at the registry update; at the second the probe answers 404.  Then
    the first run throws, the second returns normally, each of them sends a
    success event, and the registry update is attempted once, in the first
    run, and never again. *)
Theorem redelivery_after_registry_failure (w1 w2 : world) (msg : task)
    (info1 info2 : option openshift_info) (n1 n2 : names)
    (u v : unit) (e1 e2 : js_error) :
  info_answer w1 = Ok info1 -> resolve msg info1 = Ok n1 ->
  projectsGet_answer w1 = Ok u ->
  projectsDelete_answer w1 = Ok v ->
  deleteEnvironment_answer w1 = Throw e1 ->
  info_answer w2 = Ok info2 -> resolve msg info2 = Ok n2 ->
  projectsGet_answer w2 = Throw e2 ->
  code_is_404 e2 = true ->
  outcome (messageConsumer w1 msg) = Throw new_Error
  /\ outcome (messageConsumer w2 msg) = Ok tt
  /\ count is_success_event (trace (messageConsumer w1 msg)) = 1%nat
  /\ count is_success_event (trace (messageConsumer w2 msg)) = 1%nat
  /\ count is_registry_update (trace (messageConsumer w1 msg)) = 1%nat
  /\ count is_registry_update (trace (messageConsumer w2 msg)) = 0%nat.
Proof.
  intros Hi1 Hn1 Hget1 Hdel1 Hreg1 Hi2 Hn2 Hget2 H404.
  rewrite (run_registry_error w1 msg info1 n1 Hi1 Hn1 u v e1 Hget1 Hdel1 Hreg1).
  rewrite (run_not_found w2 msg info2 n2 Hi2 Hn2 e2 Hget2 H404).
  repeat split.
Qed.

Lemma redelivery_after_registry_failure_witness :
  outcome (messageConsumer Scenario.registry_down Scenario.pr_task) = Throw new_Error
  /\ outcome (messageConsumer Scenario.already_removed Scenario.pr_task) = Ok tt
  /\ count is_success_event
       (trace (messageConsumer Scenario.registry_down Scenario.pr_task)) = 1%nat
  /\ count is_success_event
       (trace (messageConsumer Scenario.already_removed Scenario.pr_task)) = 1%nat
  /\ count is_registry_update
       (trace (messageConsumer Scenario.registry_down Scenario.pr_task)) = 1%nat
  /\ count is_registry_update
       (trace (messageConsumer Scenario.already_removed Scenario.pr_task)) = 0%nat.
Proof.
  apply (redelivery_after_registry_failure Scenario.registry_down
           Scenario.already_removed Scenario.pr_task
           (Some Scenario.cluster) (Some Scenario.cluster)
           (mkNames "acme" "https://console.example" (JStr "secret")
              (JStr "acme-pr-42") (JStr "pr-42"))
           (mkNames "acme" "https://console.example" (JStr "secret")
              (JStr "acme-pr-42") (JStr "pr-42"))
           tt tt Scenario.unavailable Scenario.not_found);
    reflexivity.
Defined.

(** ** The retry and dead-letter events *)

Lemma length_app (a b : string) :
  String.length (a ++ b) = (String.length a + String.length b)%nat.
Proof.
  induction a as [|c a IH]; simpl; [reflexivity|].
  now rewrite IH.
Qed.

(** X16.  For a branch task with a non-empty branch the retry handler sends
    exactly one warning event: its metadata holds the error, the task and the
    retry count, and its text names the cluster project that name resolution
    derives for the task, shows the error as a string and ends with the
    announced delay. *)
Theorem retryHandler_reports_branch (msg : task) (os : openshift_info)
    (p b : string) (error : js_error) (retryCount retryExpirationSecs : Z) :
  projectName msg = JStr p ->
  type msg = JStr "branch" ->
  branch msg = JStr b ->
  b <> "" ->
  exists r name,
    resolve msg (Some os) = Ok r
    /\ openshiftProject r = JStr name
    /\ retryHandler msg error retryCount retryExpirationSecs
       = ([SendToLagoonLogs "warn" (JStr p) "" "task:remove-openshift:retry"
             (MetaRetry error msg retryCount)
             (("*[" ++ p ++ "]* remove `" ++ name ++ "` ERROR:" ++ nl
                    ++ "```" ++ nl ++ error_to_string error ++ nl ++ "```")
              ++ nl ++ "Retrying in " ++ number_to_string retryExpirationSecs
              ++ " secs")],
          Ok tt).
Proof.
  intros Hp Ht Hb Hne.
  eexists; exists (ocsafety_str p ++ "-" ++ ocsafety_str b).
  split; [exact (resolve_branch_value msg os p b Hp Ht Hb)|].
  split; [reflexivity|].
  unfold retryHandler, error_message, handler_project, js_or, emit.
  rewrite Hp, Hb. cbn [truthy to_string].
  apply String.eqb_neq in Hne. rewrite Hne. cbn [negb].
  rewrite !ocsafety_str_app. reflexivity.
Qed.

Lemma retryHandler_reports_branch_witness :
  exists r name,
    resolve Scenario.branch_task (Some Scenario.cluster) = Ok r
    /\ openshiftProject r = JStr name
    /\ retryHandler Scenario.branch_task new_Error 2 30
       = ([SendToLagoonLogs "warn" (JStr "My_Project") ""
             "task:remove-openshift:retry"
             (MetaRetry new_Error Scenario.branch_task 2)
             (("*[My_Project]* remove `" ++ name ++ "` ERROR:" ++ nl
                 ++ "```" ++ nl ++ "Error" ++ nl ++ "```")
              ++ nl ++ "Retrying in 30 secs")],
          Ok tt).
Proof.
  apply (retryHandler_reports_branch Scenario.branch_task Scenario.cluster
           "My_Project" "feature/X" new_Error 2 30);
    try reflexivity.
  discriminate.
Defined.

(** X17.  For a pull-request task that carries no branch, the project name
    shown in the retry and dead-letter events is three code units shorter
    than the name the worker derives, so the events never name the project
    that the worker probes and deletes.  When the number is printed as plain
    digits, the name shown is the sanitised project name, a hyphen and the
    number. *)
Theorem handler_name_of_pullrequest (msg : task) (os : openshift_info)
    (p : string) (n : Z) :
  projectName msg = JStr p ->
  type msg = JStr "pullrequest" ->
  pullrequestNumber msg = JNum n ->
  truthy (branch msg) = false ->
  (plain_decimal n = true ->
   handler_project msg = ocsafety_str p ++ "-" ++ number_to_string n)
  /\ exists r name,
       resolve msg (Some os) = Ok r
       /\ openshiftProject r = JStr name
       /\ String.length name = (String.length (handler_project msg) + 3)%nat
       /\ name <> handler_project msg.
Proof.
  intros Hp Ht Hn Hb.
  assert (Hh : handler_project msg
               = ocsafety_str p ++ "-" ++ ocsafety_str (number_to_string n)).
  { unfold handler_project, js_or. rewrite Hp, Hn, Hb. cbn [to_string].
    apply ocsafety_of_parts. }
  split.
  { intros Hplain.
    now rewrite Hh, (ocsafety_str_fixed _ (all_safe_number_to_string n Hplain)). }
  assert (Hlen : String.length (ocsafety_str p ++ "-pr-" ++ number_to_string n)
                 = (String.length (handler_project msg) + 3)%nat).
  { rewrite Hh, !length_app, !ocsafety_str_length_eq.
    change (String.length "-pr-") with 4%nat.
    change (String.length "-") with 1%nat. lia. }
  eexists; exists (ocsafety_str p ++ "-pr-" ++ number_to_string n).
  split; [exact (resolve_pullrequest_value msg os p Hp Ht)|].
  split; [now rewrite Hn|].
  split; [exact Hlen|].
  intros E. rewrite E in Hlen. lia.
Qed.

Lemma handler_name_of_pullrequest_witness :
  truthy (branch Scenario.pr_task) = false
  /\ plain_decimal 42 = true
  /\ handler_project Scenario.pr_task = "acme-42"
  /\ exists r name,
       resolve Scenario.pr_task (Some Scenario.cluster) = Ok r
       /\ openshiftProject r = JStr name
       /\ String.length name
          = (String.length (handler_project Scenario.pr_task) + 3)%nat
       /\ name <> handler_project Scenario.pr_task.
Proof.
  split; [reflexivity|]. split; [reflexivity|].
  destruct (handler_name_of_pullrequest Scenario.pr_task Scenario.cluster
              "acme" 42 eq_refl eq_refl eq_refl eq_refl) as [Hname Hrest].
  split; [exact (Hname eq_refl) | exact Hrest].
Defined.

(** ** Where the original error goes *)

(** X18.  When one of the three calls fails, the caught error is not lost: it
    is handed to the local logger at error level, and that is the last thing
    the run does before it throws the new [Error]. *)
Theorem failed_call_is_logged (w : world) (msg : task)
    (info : option openshift_info) (n : names) (err : js_error) :
  info_answer w = Ok info ->
  resolve msg info = Ok n ->
  call_fails w err ->
  exists before,
    messageConsumer w msg
    = ((before ++ [Logger Err (LogError err)])%list, Throw new_Error).
Proof.
  intros Hinfo Hnames [Hget H404 | u Hget Hdel | u v Hget Hdel Hreg].
  - rewrite (run_probe_error w msg info n Hinfo Hnames err Hget H404).
    now exists (preamble msg n).
  - rewrite (run_delete_error w msg info n Hinfo Hnames u err Hget Hdel).
    now exists (preamble msg n ++ [call_delete n])%list.
  - rewrite (run_registry_error w msg info n Hinfo Hnames u v err Hget Hdel Hreg).
    now exists (preamble msg n ++ [call_delete n; finished_event msg n;
                                   call_deleteEnvironment msg n])%list.
Qed.

Lemma failed_call_is_logged_witness :
  call_fails Scenario.removed_meanwhile Scenario.not_found
  /\ exists before,
       messageConsumer Scenario.removed_meanwhile Scenario.pr_task
       = ((before ++ [Logger Err (LogError Scenario.not_found)])%list,
          Throw new_Error).
Proof.
  assert (H : call_fails Scenario.removed_meanwhile Scenario.not_found)
    by (apply (DeleteFails _ _ tt); reflexivity).
  split; [exact H|].
  apply (failed_call_is_logged Scenario.removed_meanwhile Scenario.pr_task
           (Some Scenario.cluster)
           (mkNames "acme" "https://console.example" (JStr "secret")
              (JStr "acme-pr-42") (JStr "pr-42"))
           Scenario.not_found eq_refl eq_refl H).
Defined.

(** ** The key-reset migration *)

(** X19.  The replacement applied to the text of a private key before it is
    stored changes nothing: it puts a line feed where it finds a line feed,
    so the stored text is the text as it was printed. *)
Theorem replace_newlines_is_identity (text : string) :
  ResetProjectKeys.replace_newlines text = text.
Proof.
  unfold ResetProjectKeys.replace_newlines.
  induction text as [|c text IH]; simpl; [reflexivity|].
  rewrite IH. destruct (Ascii.eqb c (ascii_of_nat 10)) eqn:E; [|reflexivity].
  apply Ascii.eqb_eq in E. now rewrite E.
Qed.
